(** * Model_basis.py: a polymer on the 2D square lattice

    A shallow embedding of [Model_basis.py] and the properties of its
    validator, initializer, summary and entry point.

    Python integers are unbounded, so they are [Z].  A [ValueError] or an
    [IndexError] that the Python code raises is a [Raise] result here, and
    the text printed on standard output is kept as the list of the lines
    that the successive [print] calls wrote.  Strings are byte strings
    (UTF-8), as they reach the terminal. *)

From stdpp Require Import gmap strings pretty list.

Open Scope Z_scope.

(** ** Results of code that may raise *)

Inductive exn : Type :=
  | ValueError (msg : string)
  | IndexError (msg : string).

Inductive result (A : Type) : Type :=
  | Ok (a : A)
  | Raise (e : exn).
Arguments Ok {A} a.
Arguments Raise {A} e.

(** Sequencing stops at the first exception. *)
Global Instance result_bind : MBind result := λ A B k r,
  match r with
  | Ok a => k a
  | Raise e => Raise e
  end.

(** ** The Python built-ins the program uses *)

Module Py.

Definition nl : string := String (Ascii.ascii_of_nat 10) EmptyString.

(** [range(n)]: [0, 1, ..., n-1], empty when [n <= 0]. *)
Definition range (n : Z) : list Z := seqZ 0 n.

(** [len(l)] *)
Definition len {A : Type} (l : list A) : Z := Z.of_nat (length l).

(** [l[i]]: a negative index counts from the end; an index outside
    [-len(l) .. len(l)-1] raises [IndexError]. *)
Definition getitem {A : Type} (l : list A) (i : Z) : result A :=
  let j := if i <? 0 then i + len l else i in
  if (j <? 0) || (len l <=? j) then Raise (IndexError "list index out of range")
  else match l !! Z.to_nat j with
       | Some a => Ok a
       | None => Raise (IndexError "list index out of range")
       end.

(** [l[:k]] for [k >= 0] *)
Definition slice_to {A : Type} (k : nat) (l : list A) : list A := take k l.

(** [min(xs)] and [max(xs)]: the running extremum is replaced only by a
    strictly smaller (larger) item; an empty argument raises [ValueError]. *)
Definition min (xs : list Z) : result Z :=
  match xs with
  | [] => Raise (ValueError "min() arg is an empty sequence")
  | x :: rest => Ok (foldl (λ m y, if y <? m then y else m) x rest)
  end.

Definition max (xs : list Z) : result Z :=
  match xs with
  | [] => Raise (ValueError "max() arg is an empty sequence")
  | x :: rest => Ok (foldl (λ m y, if m <? y then y else m) x rest)
  end.

(** [str(i)] of an integer (also its [repr]): its decimal text.  CPython
    prints an integer only up to [sys.get_int_max_str_digits()] decimal
    digits (4300 unless reconfigured) and raises [ValueError] on a longer
    one; that refusal is not modelled.  The lengths and indices of a list
    stay far below the limit; a coordinate is whatever the caller passes,
    so what is stated about a text that holds coordinates is stated for
    printable ones (see [printable] below). *)
Definition str_int (i : Z) : string := pretty i.

(** [repr] of a pair of integers, as an f-string field prints it *)
Definition repr_pair (p : Z * Z) : string :=
  "(" +:+ str_int p.1 +:+ ", " +:+ str_int p.2 +:+ ")".

(** [repr] of a list of pairs of integers *)
Definition repr_pairs (l : list (Z * Z)) : string :=
  "[" +:+ String.concat ", " (repr_pair <$> l) +:+ "]".

(** [print(a1, ..., ak)]: the arguments' texts separated by one space,
    then a newline. *)
Definition print (args : list string) : string :=
  String.concat " " args +:+ nl.

(** [len(set(l))] *)
Definition len_set `{Countable A} (l : list A) : Z :=
  Z.of_nat (size (list_to_set l : gset A)).

End Py.

(** ** Geometry *)

Definition Pos2D : Type := Z * Z.

(** Manhattan distance on a square lattice. *)
Definition manhattan (a b : Pos2D) : Z :=
  Z.abs (a.1 - b.1) + Z.abs (a.2 - b.2).

(** 4-neighbor moves on a 2D square lattice. *)
Definition neighbors_2d (p : Pos2D) : list Pos2D :=
  let '(x, y) := p in
  [(x + 1, y); (x - 1, y); (x, y + 1); (x, y - 1)].

(** ** The polymer *)

Module Polymer2D.

Record t : Type := mk { coords : list Pos2D }.

Definition N (self : t) : Z := Py.len (coords self).

Definition overlap_msg : string :=
  "Invalid polymer: overlap detected (not self-avoiding).".

Definition bond_msg (i : Z) (a b : Pos2D) : string :=
  "Invalid polymer: broken bond at (" +:+ Py.str_int i +:+ ","
    +:+ Py.str_int (i + 1) +:+ "). "
    +:+ Py.repr_pair a +:+ " -> " +:+ Py.repr_pair b
    +:+ " (must be Manhattan distance 1)".

(** The connectivity loop of [validate], over the indices still to visit. *)
Fixpoint check_bonds (self : t) (indices : list Z) : result unit :=
  match indices with
  | [] => Ok tt
  | i :: rest =>
      a ← Py.getitem (coords self) i;
      b ← Py.getitem (coords self) (i + 1);
      if bool_decide (manhattan a b ≠ 1)
      then Raise (ValueError (bond_msg i a b))
      else check_bonds self rest
  end.

(** Check SAW validity: self-avoidance + connectivity. *)
Definition validate (self : t) : result unit :=
  if bool_decide (Py.len_set (coords self) ≠ N self)
  then Raise (ValueError overlap_msg)
  else check_bonds self (Py.range (N self - 1)).

(** Return bonded index pairs (i, i+1). *)
Definition bonds (self : t) : list (Z * Z) :=
  (λ i, (i, i + 1)) <$> Py.range (N self - 1).

(** Small summary useful for debugging. *)
Definition summary (self : t) : result string :=
  let xs := fst <$> coords self in
  let ys := snd <$> coords self in
  first ← Py.getitem (coords self) 0;
  last ← Py.getitem (coords self) (-1);
  min_x ← Py.min xs;
  max_x ← Py.max xs;
  min_y ← Py.min ys;
  max_y ← Py.max ys;
  Ok ("N = " +:+ Py.str_int (N self) +:+ Py.nl
      +:+ "First monomer: " +:+ Py.repr_pair first +:+ Py.nl
      +:+ "Last monomer : " +:+ Py.repr_pair last +:+ Py.nl
      +:+ "x range: [" +:+ Py.str_int min_x +:+ ", " +:+ Py.str_int max_x +:+ "]" +:+ Py.nl
      +:+ "y range: [" +:+ Py.str_int min_y +:+ ", " +:+ Py.str_int max_y +:+ "]" +:+ Py.nl).

End Polymer2D.

(** initialization: a straight chain along +x. *)
Definition straight_chain (N : Z) : result Polymer2D.t :=
  let coords := (λ i, (i, 0)) <$> Py.range N in
  let poly := Polymer2D.mk coords in
  Polymer2D.validate poly;;
  Ok poly.

(** ** The entry point *)

Definition banner : string := "WEEK 1 â€” 2D lattice polymer representation".

(** The third argument of the bond-preview [print]. *)
Definition ellipsis (poly : Polymer2D.t) : string :=
  if 11 <? Polymer2D.N poly then "..." else EmptyString.

(** [main], given the parsed value of [--N]: the lines written to standard
    output, in order, and how the run ends.  An exception ends the run after
    the lines already written. *)
Definition main (argN : Z) : list string * result unit :=
  match straight_chain argN with
  | Raise e => ([], Raise e)
  | Ok poly =>
      let out1 := [Py.print [banner]] in
      match Polymer2D.summary poly with
      | Raise e => (out1, Raise e)
      | Ok s =>
          (out1 ++
           [Py.print [s];
            Py.print ["Bonds (index pairs):";
                      Py.repr_pairs (Py.slice_to 10 (Polymer2D.bonds poly));
                      ellipsis poly];
            Py.print ["Validation: OK "]],
           Ok tt)
      end
  end.

(** [--N] defaults to 20. *)
Definition main_default : list string * result unit := main 20.

(** ** Specification vocabulary *)

(** No two monomers occupy the same lattice site. *)
Definition self_avoiding (l : list Pos2D) : Prop :=
  ∀ (i j : nat) (a : Pos2D), l !! i = Some a → l !! j = Some a → i = j.

(** The bond [(i, i+1)] of [l] joins [a] and [b]. *)
Definition bond_at (l : list Pos2D) (i : nat) (a b : Pos2D) : Prop :=
  l !! i = Some a ∧ l !! S i = Some b.

(** Each bond has Manhattan distance 1. *)
Definition connected (l : list Pos2D) : Prop :=
  ∀ (i : nat) (a b : Pos2D), bond_at l i a b → manhattan a b = 1.

(** Every bond of [l] with index in [[m, n)] has Manhattan distance 1. *)
Definition bonds_ok_in (l : list Pos2D) (m n : nat) : Prop :=
  ∀ (i : nat) (a b : Pos2D), (m ≤ i < n)%nat → bond_at l i a b → manhattan a b = 1.

(** A legal self-avoiding walk. *)
Definition saw (l : list Pos2D) : Prop := self_avoiding l ∧ connected l.

(** [(i, i+1)] is the first bond of [l] whose ends are not nearest neighbors. *)
Definition first_broken_bond (l : list Pos2D) (i : nat) (a b : Pos2D) : Prop :=
  bond_at l i a b ∧ manhattan a b ≠ 1 ∧
  ∀ (j : nat) (a' b' : Pos2D), (j < i)%nat → bond_at l j a' b' → manhattan a' b' = 1.

(** [m] is the least (greatest) element of [xs]. *)
Definition is_min (m : Z) (xs : list Z) : Prop := m ∈ xs ∧ Forall (λ x, m ≤ x) xs.
Definition is_max (m : Z) (xs : list Z) : Prop := m ∈ xs ∧ Forall (λ x, x ≤ m) xs.

(** CPython's default bound on the decimal digits of an integer that
    [str], [repr] and f-strings agree to print. *)
Definition int_max_str_digits : Z := 4300.

(** [i] has at most [int_max_str_digits] decimal digits (the sign does not
    count): [Py.str_int i] is then what CPython prints. *)
Definition printable (i : Z) : Prop := Z.abs i < 10 ^ int_max_str_digits.

(** Both coordinates of a lattice site are printable. *)
Definition printable_pos (a : Pos2D) : Prop := printable a.1 ∧ printable a.2.

(** The text of a summary with the given fields. *)
Definition summary_text (n : Z) (first last : Pos2D) (lo_x hi_x lo_y hi_y : Z) : string :=
  "N = " +:+ Py.str_int n +:+ Py.nl
  +:+ "First monomer: " +:+ Py.repr_pair first +:+ Py.nl
  +:+ "Last monomer : " +:+ Py.repr_pair last +:+ Py.nl
  +:+ "x range: [" +:+ Py.str_int lo_x +:+ ", " +:+ Py.str_int hi_x +:+ "]" +:+ Py.nl
  +:+ "y range: [" +:+ Py.str_int lo_y +:+ ", " +:+ Py.str_int hi_y +:+ "]" +:+ Py.nl.

(** [s] ends with [suf]. *)
Definition ends_with (suf s : string) : bool :=
  bool_decide (String.list_ascii_of_string suf `suffix_of` String.list_ascii_of_string s).

(** The bond-preview line of a run, when the run got that far. *)
Definition bonds_line (run : list string * result unit) : option string := run.1 !! 2%nat.

(** The ellipsis marker closes the bond-preview line of [main argN]. *)
Definition ellipsis_shown (argN : Z) : bool :=
  match bonds_line (main argN) with
  | Some line => ends_with ("..." +:+ Py.nl) line
  | None => false
  end.

(** ** Python built-ins *)

Section builtins.
Context {A : Type}.
Implicit Types (l : list A) (i : nat) (a : A).

Lemma getitem_lookup l i a :
  l !! i = Some a → Py.getitem l (Z.of_nat i) = Ok a.
Proof.
  intros Hi. pose proof (lookup_lt_Some _ _ _ Hi) as Hlt.
  unfold Py.getitem, Py.len.
  destruct (Z.ltb_spec (Z.of_nat i) 0) as [?|_]; [lia|].
  destruct (Z.ltb_spec (Z.of_nat i) 0) as [?|_]; [lia|].
  destruct (Z.leb_spec (Z.of_nat (length l)) (Z.of_nat i)) as [?|_]; [lia|].
  simpl. by rewrite Nat2Z.id, Hi.
Qed.

Lemma getitem_nil (z : Z) :
  Py.getitem (@nil A) z = Raise (IndexError "list index out of range").
Proof.
  unfold Py.getitem. destruct (_ || _); [done|]. by rewrite lookup_nil.
Qed.

Lemma getitem_last l a :
  last l = Some a → Py.getitem l (-1) = Ok a.
Proof.
  intros Hl. rewrite last_lookup in Hl.
  pose proof (lookup_lt_Some _ _ _ Hl) as Hlt.
  unfold Py.getitem, Py.len.
  replace (-1 <? 0) with true by done.
  destruct (Z.ltb_spec (-1 + Z.of_nat (length l)) 0) as [?|_]; [lia|].
  destruct (Z.leb_spec (Z.of_nat (length l)) (-1 + Z.of_nat (length l))) as [?|_]; [lia|].
  simpl. replace (Z.to_nat (-1 + Z.of_nat (length l))) with (pred (length l)) by lia.
  by rewrite Hl.
Qed.
End builtins.

Lemma foldl_min_spec (rest : list Z) (x : Z) :
  let m := foldl (λ m y, if y <? m then y else m) x rest in
  (m = x ∨ m ∈ rest) ∧ m ≤ x ∧ Forall (λ y, m ≤ y) rest.
Proof.
  revert x. induction rest as [|y rest IH]; intros x; simpl.
  - repeat split; [by left | lia | constructor].
  - destruct (IH (if y <? x then y else x)) as (Hin & Hle & Hall).
    destruct (Z.ltb_spec y x).
    + repeat split; [right; destruct Hin as [->|?]; [left|by right] | lia |].
      constructor; [lia | done].
    + repeat split; [destruct Hin as [->|?]; [by left|right; by right] | lia |].
      constructor; [lia | done].
Qed.

Lemma foldl_max_spec (rest : list Z) (x : Z) :
  let m := foldl (λ m y, if m <? y then y else m) x rest in
  (m = x ∨ m ∈ rest) ∧ x ≤ m ∧ Forall (λ y, y ≤ m) rest.
Proof.
  revert x. induction rest as [|y rest IH]; intros x; simpl.
  - repeat split; [by left | lia | constructor].
  - destruct (IH (if x <? y then y else x)) as (Hin & Hle & Hall).
    destruct (Z.ltb_spec x y).
    + repeat split; [right; destruct Hin as [->|?]; [left|by right] | lia |].
      constructor; [lia | done].
    + repeat split; [destruct Hin as [->|?]; [by left|right; by right] | lia |].
      constructor; [lia | done].
Qed.

Lemma is_min_unique (m m' : Z) (xs : list Z) : is_min m xs → is_min m' xs → m = m'.
Proof.
  intros [Hin Hall] [Hin' Hall']. rewrite Forall_forall in Hall, Hall'.
  specialize (Hall _ Hin'). specialize (Hall' _ Hin). lia.
Qed.

Lemma is_max_unique (m m' : Z) (xs : list Z) : is_max m xs → is_max m' xs → m = m'.
Proof.
  intros [Hin Hall] [Hin' Hall']. rewrite Forall_forall in Hall, Hall'.
  specialize (Hall _ Hin'). specialize (Hall' _ Hin). lia.
Qed.

Lemma min_is_min (xs : list Z) (m : Z) : is_min m xs → Py.min xs = Ok m.
Proof.
  intros Hm. destruct xs as [|x rest]; [destruct Hm as [Hin _]; by apply elem_of_nil in Hin|].
  simpl. f_equal. apply (is_min_unique _ _ (x :: rest)); [|done].
  destruct (foldl_min_spec rest x) as (Hin & Hle & Hall). split.
  - destruct Hin as [->|?]; [left | by right].
  - by constructor.
Qed.

Lemma max_is_max (xs : list Z) (m : Z) : is_max m xs → Py.max xs = Ok m.
Proof.
  intros Hm. destruct xs as [|x rest]; [destruct Hm as [Hin _]; by apply elem_of_nil in Hin|].
  simpl. f_equal. apply (is_max_unique _ _ (x :: rest)); [|done].
  destruct (foldl_max_spec rest x) as (Hin & Hle & Hall). split.
  - destruct Hin as [->|?]; [left | by right].
  - by constructor.
Qed.

(** [len(set(l)) == len(l)] exactly when [l] has no repeated item. *)
Section len_set.
Context {A : Type} `{!EqDecision A, !Countable A}.
Implicit Types (l : list A).

Lemma size_list_to_set_le l : (size (list_to_set l : gset A) ≤ length l)%nat.
Proof.
  induction l as [|x l IH].
  - change (list_to_set [] : gset A) with (∅ : gset A). by rewrite size_empty.
  - change (list_to_set (x :: l) : gset A) with ({[x]} ∪ list_to_set l : gset A).
    pose proof (size_union_alt (C:=gset A) {[x]} (list_to_set l)) as Hu.
    pose proof (subseteq_size (C:=gset A) (list_to_set l ∖ {[x]}) (list_to_set l)) as Hs.
    rewrite size_singleton in Hu. simpl.
    assert (size (list_to_set l ∖ {[x]} : gset A) ≤ size (list_to_set l : gset A))%nat
      by (apply Hs; intros y Hy; by apply elem_of_difference in Hy as [? _]).
    lia.
Qed.

Lemma size_list_to_set_dup x l :
  x ∈ l → (size (list_to_set (x :: l) : gset A) ≤ length l)%nat.
Proof.
  intros Hin.
  replace (list_to_set (x :: l) : gset A) with (list_to_set l : gset A).
  - apply size_list_to_set_le.
  - apply set_eq. intros y.
    rewrite list_to_set_cons, elem_of_union, elem_of_singleton, !elem_of_list_to_set.
    split; [by right | by intros [->|?]].
Qed.

Lemma len_set_NoDup l : Py.len_set l = Py.len l ↔ NoDup l.
Proof.
  unfold Py.len_set, Py.len. split.
  - induction l as [|x l IH]; [constructor|].
    intros Heq. apply Nat2Z.inj in Heq.
    destruct (decide (x ∈ l)) as [Hin|Hnin].
    + pose proof (size_list_to_set_dup x l Hin) as Hle.
      rewrite Heq, length_cons in Hle. lia.
    + constructor; [done|]. apply IH. f_equal.
      rewrite list_to_set_cons, size_union, size_singleton, length_cons in Heq
        by set_solver.
      lia.
  - intros Hnd. f_equal. by apply size_list_to_set.
Qed.
End len_set.


(** ** The connectivity loop *)

Section check_bonds.
Variable self : Polymer2D.t.
Abbreviation l := (Polymer2D.coords self).

Lemma bond_at_exists (i : nat) :
  (S i < length l)%nat → ∃ a b, bond_at l i a b.
Proof.
  intros Hi.
  destruct (lookup_lt_is_Some_2 l i) as [a Ha]; [lia|].
  destruct (lookup_lt_is_Some_2 l (S i)) as [b Hb]; [lia|].
  by exists a, b.
Qed.

Lemma bond_at_inj (i : nat) (a b a' b' : Pos2D) :
  bond_at l i a b → bond_at l i a' b' → a = a' ∧ b = b'.
Proof. intros [Ha Hb] [Ha' Hb']. split; congruence. Qed.

Lemma check_bonds_step (i : nat) (a b : Pos2D) (rest : list Z) :
  bond_at l i a b →
  Polymer2D.check_bonds self (Z.of_nat i :: rest) =
    if bool_decide (manhattan a b ≠ 1)
    then Raise (ValueError (Polymer2D.bond_msg (Z.of_nat i) a b))
    else Polymer2D.check_bonds self rest.
Proof.
  intros [Ha Hb]. simpl.
  rewrite (getitem_lookup _ _ _ Ha). simpl.
  replace (Z.of_nat i + 1) with (Z.of_nat (S i)) by lia.
  by rewrite (getitem_lookup _ _ _ Hb).
Qed.

(** The loop over the indices [m, ..., m+k-1], all of them bonds of the
    polymer: it either finds every bond intact and returns, or raises at the
    first broken one. *)
Lemma check_bonds_spec (k m : nat) :
  (k = 0 ∨ m + k < length l)%nat →
  (Polymer2D.check_bonds self (seqZ (Z.of_nat m) (Z.of_nat k)) = Ok tt
     ∧ bonds_ok_in l m (m + k))
  ∨ (∃ (i : nat) (a b : Pos2D),
       (m ≤ i < m + k)%nat ∧ bond_at l i a b ∧ manhattan a b ≠ 1
       ∧ bonds_ok_in l m i
       ∧ Polymer2D.check_bonds self (seqZ (Z.of_nat m) (Z.of_nat k))
           = Raise (ValueError (Polymer2D.bond_msg (Z.of_nat i) a b))).
Proof.
  revert m. induction k as [|k IH]; intros m Hlen.
  - left. split; [done|]. intros i a b ?. lia.
  - destruct Hlen as [?|Hlen]; [lia|].
    rewrite seqZ_cons by lia.
    replace (Z.succ (Z.of_nat m)) with (Z.of_nat (S m)) by lia.
    replace (Z.pred (Z.of_nat (S k))) with (Z.of_nat k) by lia.
    destruct (bond_at_exists m) as (a & b & Hab); [lia|].
    rewrite (check_bonds_step _ _ _ _ Hab).
    case_bool_decide as Hd.
    + right. exists m, a, b.
      split; [lia|]. split; [done|]. split; [done|]. split; [|done].
      intros i ? ? ?. lia.
    + assert (manhattan a b = 1) as Hm by (destruct (decide (manhattan a b = 1)); done).
      destruct (IH (S m)) as [[Hok Hall]|(i & a' & b' & Hi & Hb & Hne & Hpre & Hr)]; [lia| |].
      * left. split; [done|]. intros i a' b' Hi Hb.
        destruct (decide (i = m)) as [->|?].
        -- destruct (bond_at_inj _ _ _ _ _ Hab Hb) as [-> ->]. done.
        -- apply (Hall i); [lia|done].
      * right. exists i, a', b'.
        split; [lia|]. split; [done|]. split; [done|]. split; [|done].
        intros j a'' b'' Hj Hb''.
        destruct (decide (j = m)) as [->|?].
        -- destruct (bond_at_inj _ _ _ _ _ Hab Hb'') as [-> ->]. done.
        -- apply (Hpre j); [lia|done].
Qed.

Lemma range_bonds : Py.range (Polymer2D.N self - 1) = seqZ (Z.of_nat 0) (Z.of_nat (length l - 1)).
Proof.
  unfold Py.range, Polymer2D.N, Py.len, seqZ. do 2 f_equal. lia.
Qed.

(** The loop as [validate] runs it, over [range(N - 1)]. *)
Lemma check_bonds_range :
  (Polymer2D.check_bonds self (Py.range (Polymer2D.N self - 1)) = Ok tt ∧ connected l)
  ∨ (∃ (i : nat) (a b : Pos2D),
       first_broken_bond l i a b
       ∧ Polymer2D.check_bonds self (Py.range (Polymer2D.N self - 1))
           = Raise (ValueError (Polymer2D.bond_msg (Z.of_nat i) a b))).
Proof.
  rewrite range_bonds.
  destruct (check_bonds_spec (length l - 1) 0) as [[Hok Hall]|(i & a & b & Hi & Hb & Hne & Hpre & Hr)].
  - destruct (length l); [left|right]; lia.
  - left. split; [done|]. intros i a b Hb. apply (Hall i); [|done].
    destruct Hb as [_ Hb]. apply lookup_lt_Some in Hb. lia.
  - right. exists i, a, b. split; [|done].
    split; [done|]. split; [done|].
    intros j a' b' Hj Hb'. apply (Hpre j); [lia|done].
Qed.
End check_bonds.

Lemma self_avoiding_NoDup (l : list Pos2D) : self_avoiding l ↔ NoDup l.
Proof. unfold self_avoiding. by rewrite NoDup_alt. Qed.

Lemma first_broken_bond_unique (l : list Pos2D) i a b i' a' b' :
  first_broken_bond l i a b → first_broken_bond l i' a' b' → i = i' ∧ a = a' ∧ b = b'.
Proof.
  intros (Hb & Hne & Hpre) (Hb' & Hne' & Hpre').
  assert (i = i') as ->.
  { destruct (Nat.lt_trichotomy i i') as [Hlt|[?|Hlt]]; [|done|].
    - by specialize (Hpre' _ _ _ Hlt Hb).
    - by specialize (Hpre _ _ _ Hlt Hb'). }
  destruct Hb as [Ha Hb], Hb' as [Ha' Hb']. repeat split; congruence.
Qed.

Lemma broken_not_connected (l : list Pos2D) i a b :
  first_broken_bond l i a b → ¬ connected l.
Proof. intros (Hb & Hne & _) Hc. by apply Hne, (Hc i). Qed.

(** The two messages of [validate] never coincide. *)
Lemma bond_msg_not_overlap_msg (i : Z) (a b : Pos2D) :
  Polymer2D.bond_msg i a b ≠ Polymer2D.overlap_msg.
Proof. unfold Polymer2D.bond_msg, Polymer2D.overlap_msg. simpl. discriminate. Qed.

(** What [validate] does, by cases on the polymer. *)
Lemma validate_overlap (p : Polymer2D.t) :
  ¬ self_avoiding (Polymer2D.coords p) →
  Polymer2D.validate p = Raise (ValueError Polymer2D.overlap_msg).
Proof.
  intros Hsa. unfold Polymer2D.validate, Polymer2D.N.
  rewrite bool_decide_true; [done|].
  intros Heq. by apply Hsa, self_avoiding_NoDup, len_set_NoDup.
Qed.

Lemma validate_distinct (p : Polymer2D.t) :
  self_avoiding (Polymer2D.coords p) →
  Polymer2D.validate p = Polymer2D.check_bonds p (Py.range (Polymer2D.N p - 1)).
Proof.
  intros Hsa. unfold Polymer2D.validate.
  rewrite bool_decide_false; [done|].
  intros Hne. by apply Hne, len_set_NoDup, self_avoiding_NoDup.
Qed.

Lemma validate_saw (p : Polymer2D.t) :
  saw (Polymer2D.coords p) → Polymer2D.validate p = Ok tt.
Proof.
  intros [Hsa Hc]. rewrite (validate_distinct p Hsa).
  destruct (check_bonds_range p) as [[-> _]|(i & a & b & Hfb & _)]; [done|].
  by destruct (broken_not_connected _ _ _ _ Hfb).
Qed.

Lemma self_avoiding_dec (l : list Pos2D) : Decision (self_avoiding l).
Proof.
  destruct (decide (NoDup l)) as [Hn|Hn]; [left|right]; by rewrite self_avoiding_NoDup.
Defined.

(** ** The validator *)


(** C2: on a coordinate sequence that holds some position twice, [validate]
    raises the overlap error and never a broken-bond error, whatever the
    distances between consecutive positions are. *)
Theorem validate_overlap_before_bonds (p : Polymer2D.t) :
  (∃ (i j : nat) (a : Pos2D),
     i ≠ j ∧ Polymer2D.coords p !! i = Some a ∧ Polymer2D.coords p !! j = Some a) →
  Polymer2D.validate p = Raise (ValueError Polymer2D.overlap_msg)
  ∧ ∀ (k : Z) (a b : Pos2D),
      Polymer2D.validate p ≠ Raise (ValueError (Polymer2D.bond_msg k a b)).
Proof.
  intros (i & j & a & Hne & Hi & Hj).
  assert (Polymer2D.validate p = Raise (ValueError Polymer2D.overlap_msg)) as ->.
  { apply validate_overlap. intros Hsa. by apply Hne, (Hsa i j a). }
  split; [done|]. intros k a' b' Heq.
  apply (bond_msg_not_overlap_msg k a' b'). congruence.
Qed.

Lemma validate_overlap_before_bonds_witness :
  Polymer2D.validate (Polymer2D.mk [(0, 0); (1, 0); (1, 0)])
    = Raise (ValueError "Invalid polymer: overlap detected (not self-avoiding).")
  ∧ ∀ (k : Z) (a b : Pos2D),
      Polymer2D.validate (Polymer2D.mk [(0, 0); (1, 0); (1, 0)])
        ≠ Raise (ValueError (Polymer2D.bond_msg k a b)).
Proof.
  apply (validate_overlap_before_bonds (Polymer2D.mk [(0, 0); (1, 0); (1, 0)])).
  exists 1%nat, 2%nat, (1, 0). split; [lia|]. split; reflexivity.
Defined.

(** C3: on a coordinate sequence of pairwise distinct positions with some
    consecutive pair not at Manhattan distance 1, [validate] raises the
    broken-bond error of the first such pair [(i, i+1)]: its message names
    [i], [i+1] and the two coordinates [coords[i]] and [coords[i+1]].  The
    coordinates are taken printable, as the message prints them. *)
Theorem validate_first_broken_bond (p : Polymer2D.t) :
  Forall printable_pos (Polymer2D.coords p) →
  self_avoiding (Polymer2D.coords p) →
  (∃ (k : nat) (a b : Pos2D), bond_at (Polymer2D.coords p) k a b ∧ manhattan a b ≠ 1) →
  ∃ (i : nat) (a b : Pos2D),
    first_broken_bond (Polymer2D.coords p) i a b
    ∧ Polymer2D.validate p
        = Raise (ValueError
            ("Invalid polymer: broken bond at (" +:+ Py.str_int (Z.of_nat i) +:+ ","
               +:+ Py.str_int (Z.of_nat i + 1) +:+ "). "
               +:+ Py.repr_pair a +:+ " -> " +:+ Py.repr_pair b
               +:+ " (must be Manhattan distance 1)")).
Proof.
  intros _ Hsa (k & a & b & Hb & Hne).
  rewrite (validate_distinct p Hsa).
  destruct (check_bonds_range p) as [[_ Hc]|(i & a' & b' & Hfb & ->)].
  - by destruct Hne, (Hc k a b).
  - by exists i, a', b'.
Qed.

Lemma validate_first_broken_bond_witness :
  ∃ (i : nat) (a b : Pos2D),
    first_broken_bond [(0, 0); (1, 0); (3, 0)] i a b
    ∧ Polymer2D.validate (Polymer2D.mk [(0, 0); (1, 0); (3, 0)])
        = Raise (ValueError
            ("Invalid polymer: broken bond at (" +:+ Py.str_int (Z.of_nat i) +:+ ","
               +:+ Py.str_int (Z.of_nat i + 1) +:+ "). "
               +:+ Py.repr_pair a +:+ " -> " +:+ Py.repr_pair b
               +:+ " (must be Manhattan distance 1)")).
Proof.
  apply (validate_first_broken_bond (Polymer2D.mk [(0, 0); (1, 0); (3, 0)])).
  - repeat (constructor; [split; by vm_compute|]). constructor.
  - apply self_avoiding_NoDup. apply (bool_decide_unpack _). vm_compute. exact I.
  - exists 1%nat, (1, 0), (3, 0). split; [split; reflexivity|]. vm_compute. lia.
Defined.

(** The spec's example: the reported index pair is (1,2). *)
Example validate_broken_bond_1_2 :
  first_broken_bond [(0, 0); (1, 0); (3, 0)] 1 (1, 0) (3, 0)
  ∧ Polymer2D.validate (Polymer2D.mk [(0, 0); (1, 0); (3, 0)])
      = Raise (ValueError
          "Invalid polymer: broken bond at (1,2). (1, 0) -> (3, 0) (must be Manhattan distance 1)").
Proof.
  split; [|by vm_compute].
  split; [done|]. split; [by vm_compute|].
  intros j a' b' Hj [Ha Hb]. destruct j as [|[|j]]; [|lia|lia].
  simpl in Ha, Hb. by simplify_eq.
Qed.

(** C10: [validate] returns normally on every polymer with fewer than two
    monomers, the empty one included, although [summary] raises on the
    empty polymer. *)
Theorem validate_short_ok (p : Polymer2D.t) :
  Polymer2D.N p < 2 →
  Polymer2D.validate p = Ok tt
  ∧ (Polymer2D.N p = 0 →
       Polymer2D.summary p = Raise (IndexError "list index out of range")).
Proof.
  destruct p as [l]. unfold Polymer2D.N, Py.len. simpl. intros Hlen. split.
  - assert (self_avoiding l) as Hsa.
    { intros i j a Hi Hj. apply lookup_lt_Some in Hi, Hj. lia. }
    rewrite (validate_distinct (Polymer2D.mk l) Hsa).
    unfold Polymer2D.N, Py.len, Py.range. simpl.
    by rewrite seqZ_nil by lia.
  - intros H0. destruct l; [|simpl in H0; lia].
    unfold Polymer2D.summary. cbn [Polymer2D.coords]. by rewrite getitem_nil.
Qed.

Lemma validate_short_ok_witness :
  (Polymer2D.validate (Polymer2D.mk []) = Ok tt
   ∧ (Polymer2D.N (Polymer2D.mk []) = 0 →
        Polymer2D.summary (Polymer2D.mk []) = Raise (IndexError "list index out of range")))
  ∧ Polymer2D.validate (Polymer2D.mk [(7, -3)]) = Ok tt.
Proof.
  split.
  - apply (validate_short_ok (Polymer2D.mk [])). reflexivity.
  - apply (validate_short_ok (Polymer2D.mk [(7, -3)])). reflexivity.
Defined.

(** ** The initializer *)

Section straight.
Variable n : Z.
Abbreviation line_coords := ((λ i : Z, (i, 0)) <$> Py.range n : list Pos2D).

Lemma line_coords_lookup (i : nat) (a : Pos2D) :
  line_coords !! i = Some a ↔ a = (Z.of_nat i, 0) ∧ Z.of_nat i < n.
Proof.
  unfold Py.range. rewrite list_lookup_fmap, fmap_Some. setoid_rewrite lookup_seqZ.
  split.
  - intros (z & [-> ?] & ->). split; [f_equal; lia | done].
  - intros [-> ?]. exists (Z.of_nat i). split; [split; [lia|done] | done].
Qed.

Lemma line_coords_length : Py.len line_coords = Z.max 0 n.
Proof. unfold Py.len, Py.range. rewrite length_fmap, length_seqZ. lia. Qed.

Lemma line_coords_saw : saw line_coords.
Proof.
  split.
  - intros i j a Hi Hj. apply line_coords_lookup in Hi as [-> _].
    apply line_coords_lookup in Hj as [Heq _]. simplify_eq. lia.
  - intros i a b [Ha Hb]. apply line_coords_lookup in Ha as [-> _].
    apply line_coords_lookup in Hb as [-> _]. unfold manhattan. simpl. lia.
Qed.

Lemma straight_chain_ok : straight_chain n = Ok (Polymer2D.mk line_coords).
Proof.
  unfold straight_chain.
  by rewrite (validate_saw (Polymer2D.mk line_coords) line_coords_saw).
Qed.
End straight.

(** C4: for every N >= 1, [straight_chain N] returns a polymer of exactly N
    monomers whose i-th coordinate is (i, 0) for i = 0, ..., N-1, and
    [validate] returns normally on it. *)
Theorem straight_chain_valid (n : Z) :
  1 ≤ n →
  ∃ poly : Polymer2D.t,
    straight_chain n = Ok poly
    ∧ Polymer2D.N poly = n
    ∧ (∀ i : Z, 0 ≤ i < n → Py.getitem (Polymer2D.coords poly) i = Ok (i, 0))
    ∧ Polymer2D.validate poly = Ok tt.
Proof.
  intros Hn. exists (Polymer2D.mk ((λ i : Z, (i, 0)) <$> Py.range n)).
  split; [apply straight_chain_ok|]. split; [|split].
  - unfold Polymer2D.N. cbn [Polymer2D.coords]. rewrite line_coords_length. lia.
  - intros i Hi. cbn [Polymer2D.coords].
    replace i with (Z.of_nat (Z.to_nat i)) at 1 by lia.
    apply getitem_lookup, line_coords_lookup. split; [f_equal|]; lia.
  - apply validate_saw, line_coords_saw.
Qed.

Lemma straight_chain_valid_witness :
  ∃ poly : Polymer2D.t,
    straight_chain 5 = Ok poly
    ∧ Polymer2D.N poly = 5
    ∧ (∀ i : Z, 0 ≤ i < 5 → Py.getitem (Polymer2D.coords poly) i = Ok (i, 0))
    ∧ Polymer2D.validate poly = Ok tt.
Proof. apply (straight_chain_valid 5). lia. Defined.

Example straight_chain_3 :
  straight_chain 3 = Ok (Polymer2D.mk [(0, 0); (1, 0); (2, 0)]).
Proof. by vm_compute. Qed.

(** C5: for every N <= 0, [straight_chain N] raises nothing and returns the
    empty chain, a degenerate polymer; non-positive N is not rejected. *)
Theorem straight_chain_nonpositive (n : Z) :
  n ≤ 0 →
  straight_chain n = Ok (Polymer2D.mk [])
  ∧ ∃ poly : Polymer2D.t, straight_chain n = Ok poly ∧ 0 ≤ Polymer2D.N poly ≤ 1.
Proof.
  intros Hn. rewrite straight_chain_ok. unfold Py.range. rewrite seqZ_nil by done.
  split; [done|]. by eexists.
Qed.

Lemma straight_chain_nonpositive_witness :
  (straight_chain 0 = Ok (Polymer2D.mk [])
   ∧ ∃ poly : Polymer2D.t, straight_chain 0 = Ok poly ∧ 0 ≤ Polymer2D.N poly ≤ 1)
  ∧ (straight_chain (-4) = Ok (Polymer2D.mk [])
     ∧ ∃ poly : Polymer2D.t, straight_chain (-4) = Ok poly ∧ 0 ≤ Polymer2D.N poly ≤ 1).
Proof.
  split; [apply (straight_chain_nonpositive 0) | apply (straight_chain_nonpositive (-4))]; lia.
Defined.

(** ** The summary *)

Lemma summary_fields (p : Polymer2D.t) (first last : Pos2D) (lo_x hi_x lo_y hi_y : Z) :
  Py.getitem (Polymer2D.coords p) 0 = Ok first →
  Py.getitem (Polymer2D.coords p) (-1) = Ok last →
  Py.min (fst <$> Polymer2D.coords p) = Ok lo_x →
  Py.max (fst <$> Polymer2D.coords p) = Ok hi_x →
  Py.min (snd <$> Polymer2D.coords p) = Ok lo_y →
  Py.max (snd <$> Polymer2D.coords p) = Ok hi_y →
  Polymer2D.summary p
    = Ok (summary_text (Polymer2D.N p) first last lo_x hi_x lo_y hi_y).
Proof.
  intros H1 H2 H3 H4 H5 H6. unfold Polymer2D.summary.
  by rewrite H1, H2, H3, H4, H5, H6.
Qed.

(** On a non-empty polymer every field of the summary is available. *)
Lemma summary_nonempty (p : Polymer2D.t) :
  Polymer2D.coords p ≠ [] → ∃ s : string, Polymer2D.summary p = Ok s.
Proof.
  destruct p as [l]. cbn [Polymer2D.coords]. intros Hne.
  destruct l as [|a l]; [done|].
  destruct (last (a :: l)) as [z|] eqn:Hlast;
    [|by apply last_None in Hlast].
  eexists. apply (summary_fields _ a z); cbn [Polymer2D.coords].
  - by apply (getitem_lookup _ 0%nat).
  - by apply getitem_last.
  - reflexivity.
  - reflexivity.
  - reflexivity.
  - reflexivity.
Qed.

(** C7: [summary] raises (an [IndexError], at [coords[0]]) whenever the
    polymer has no monomer; it returns a text only for N >= 1. *)
Theorem summary_empty_raises (p : Polymer2D.t) :
  Polymer2D.N p = 0 →
  Polymer2D.summary p = Raise (IndexError "list index out of range")
  ∧ ∀ s : string, Polymer2D.summary p ≠ Ok s.
Proof.
  destruct p as [l]. unfold Polymer2D.N, Py.len. cbn [Polymer2D.coords]. intros H0.
  destruct l; [|simpl in H0; lia].
  assert (Polymer2D.summary (Polymer2D.mk []) = Raise (IndexError "list index out of range")) as ->.
  { unfold Polymer2D.summary. cbn [Polymer2D.coords]. by rewrite getitem_nil. }
  split; [done|]. intros s. discriminate.
Qed.

Lemma summary_empty_raises_witness :
  Polymer2D.summary (Polymer2D.mk []) = Raise (IndexError "list index out of range")
  ∧ ∀ s : string, Polymer2D.summary (Polymer2D.mk []) ≠ Ok s.
Proof. apply (summary_empty_raises (Polymer2D.mk [])). reflexivity. Defined.

(** C8: on a non-empty polymer, [summary] returns the text made of the
    monomer count, the first and the last coordinate, and the least and
    greatest x and y over all monomers.  The coordinates are taken
    printable, as the text prints them. *)
Theorem summary_reports (p : Polymer2D.t) (c_first c_last : Pos2D) (lo_x hi_x lo_y hi_y : Z) :
  Forall printable_pos (Polymer2D.coords p) →
  head (Polymer2D.coords p) = Some c_first →
  last (Polymer2D.coords p) = Some c_last →
  is_min lo_x (fst <$> Polymer2D.coords p) →
  is_max hi_x (fst <$> Polymer2D.coords p) →
  is_min lo_y (snd <$> Polymer2D.coords p) →
  is_max hi_y (snd <$> Polymer2D.coords p) →
  Polymer2D.summary p
    = Ok ("N = " +:+ Py.str_int (Z.of_nat (length (Polymer2D.coords p))) +:+ Py.nl
          +:+ "First monomer: " +:+ Py.repr_pair c_first +:+ Py.nl
          +:+ "Last monomer : " +:+ Py.repr_pair c_last +:+ Py.nl
          +:+ "x range: [" +:+ Py.str_int lo_x +:+ ", " +:+ Py.str_int hi_x +:+ "]" +:+ Py.nl
          +:+ "y range: [" +:+ Py.str_int lo_y +:+ ", " +:+ Py.str_int hi_y +:+ "]" +:+ Py.nl).
Proof.
  intros _ Hfirst Hlast Hlx Hhx Hly Hhy.
  apply (summary_fields p c_first c_last lo_x hi_x lo_y hi_y).
  - rewrite head_lookup in Hfirst. by apply (getitem_lookup _ 0%nat).
  - by apply getitem_last.
  - by apply min_is_min.
  - by apply max_is_max.
  - by apply min_is_min.
  - by apply max_is_max.
Qed.

Lemma summary_reports_witness :
  straight_chain 5 = Ok (Polymer2D.mk [(0, 0); (1, 0); (2, 0); (3, 0); (4, 0)])
  ∧ Polymer2D.summary (Polymer2D.mk [(0, 0); (1, 0); (2, 0); (3, 0); (4, 0)])
    = Ok ("N = 5" +:+ Py.nl
          +:+ "First monomer: (0, 0)" +:+ Py.nl
          +:+ "Last monomer : (4, 0)" +:+ Py.nl
          +:+ "x range: [0, 4]" +:+ Py.nl
          +:+ "y range: [0, 0]" +:+ Py.nl).
Proof.
  split; [by vm_compute|].
  apply (summary_reports (Polymer2D.mk [(0, 0); (1, 0); (2, 0); (3, 0); (4, 0)])
           (0, 0) (4, 0) 0 4 0 0).
  - repeat (constructor; [split; by vm_compute|]). constructor.
  - reflexivity.
  - reflexivity.
  - split; [set_solver | simpl; repeat (constructor; [lia|]); constructor].
  - split; [set_solver | simpl; repeat (constructor; [lia|]); constructor].
  - split; [set_solver | simpl; repeat (constructor; [lia|]); constructor].
  - split; [set_solver | simpl; repeat (constructor; [lia|]); constructor].
Defined.

(** The extrema are taken over all monomers, wherever they stand. *)
Example summary_bent_chain :
  Polymer2D.summary (Polymer2D.mk [(0, 0); (0, 1); (-1, 1); (-1, 2); (0, 2); (1, 2)])
  = Ok ("N = 6" +:+ Py.nl
        +:+ "First monomer: (0, 0)" +:+ Py.nl
        +:+ "Last monomer : (1, 2)" +:+ Py.nl
        +:+ "x range: [-1, 1]" +:+ Py.nl
        +:+ "y range: [0, 2]" +:+ Py.nl).
Proof. by vm_compute. Qed.

(** ** Neighbors *)

(** C9: [neighbors_2d (x, y)] is the list of the four points
    (x+1,y), (x-1,y), (x,y+1), (x,y-1), in this order; each of them is at
    Manhattan distance 1 from (x, y), and no other point is. *)
Theorem neighbors_2d_spec (x y : Z) :
  neighbors_2d (x, y) = [(x + 1, y); (x - 1, y); (x, y + 1); (x, y - 1)]
  ∧ length (neighbors_2d (x, y)) = 4%nat
  ∧ Forall (λ q, manhattan (x, y) q = 1) (neighbors_2d (x, y))
  ∧ ∀ q : Pos2D, manhattan (x, y) q = 1 → q ∈ neighbors_2d (x, y).
Proof.
  split; [done|]. split; [done|]. split.
  - unfold neighbors_2d, manhattan. repeat constructor; simpl; lia.
  - intros [u v]. unfold neighbors_2d, manhattan. simpl. intros Hd.
    assert ((u = x + 1 ∧ v = y) ∨ (u = x - 1 ∧ v = y)
            ∨ (u = x ∧ v = y + 1) ∨ (u = x ∧ v = y - 1)) as Hc by lia.
    destruct Hc as [[-> ->]|[[-> ->]|[[-> ->]|[-> ->]]]]; set_solver.
Qed.

Example neighbors_origin :
  neighbors_2d (0, 0) = [(1, 0); (-1, 0); (0, 1); (0, -1)].
Proof. reflexivity. Qed.

(** ** The entry point *)

Lemma list_ascii_of_string_app (s1 s2 : string) :
  String.list_ascii_of_string (s1 +:+ s2)
  = String.list_ascii_of_string s1 ++ String.list_ascii_of_string s2.
Proof. induction s1 as [|c s1 IH]; simpl; [done|by rewrite IH]. Qed.

(** The text of a [print] with three arguments. *)
Lemma print3_chars (a b c : string) :
  String.list_ascii_of_string (Py.print [a; b; c])
  = (String.list_ascii_of_string (a +:+ " " +:+ b) ++ String.list_ascii_of_string " ")
    ++ String.list_ascii_of_string (c +:+ Py.nl).
Proof.
  unfold Py.print. cbn [String.concat].
  rewrite !list_ascii_of_string_app. by rewrite <- !(assoc_L (++)).
Qed.

Lemma ends_with_ellipsis_print3 (a b : string) :
  ends_with ("..." +:+ Py.nl) (Py.print [a; b; "..."]) = true.
Proof.
  unfold ends_with. apply bool_decide_eq_true. rewrite print3_chars.
  by eexists.
Qed.

Lemma ends_with_ellipsis_print3_empty (a b : string) :
  ends_with ("..." +:+ Py.nl) (Py.print [a; b; EmptyString]) = false.
Proof.
  unfold ends_with. apply bool_decide_eq_false. rewrite print3_chars.
  cbn [String.append String.list_ascii_of_string Py.nl].
  set (l := String.list_ascii_of_string (a +:+ " " +:+ b)).
  intros Hsuf.
  assert (∀ (x y z w v : Ascii.ascii) (k : list Ascii.ascii),
            [x; y; z; w] `suffix_of` (k ++ [v]) ++ [w] → z = v) as Hlast.
  { intros x y z w v k Hs.
    change [x; y; z; w] with (([x; y] ++ [z]) ++ [w]) in Hs.
    apply suffix_snoc_inv_2 in Hs. by apply suffix_snoc_inv_1 in Hs. }
  apply Hlast in Hsuf. discriminate.
Qed.

(** A run of [main] with at least one monomer prints its four lines. *)
Lemma main_positive (n : Z) :
  1 ≤ n →
  ∃ (poly : Polymer2D.t) (s : string),
    straight_chain n = Ok poly
    ∧ Polymer2D.N poly = n
    ∧ Polymer2D.summary poly = Ok s
    ∧ main n
      = ([Py.print [banner];
          Py.print [s];
          Py.print ["Bonds (index pairs):";
                    Py.repr_pairs (Py.slice_to 10 (Polymer2D.bonds poly));
                    ellipsis poly];
          Py.print ["Validation: OK "]],
         Ok tt).
Proof.
  intros Hn. set (poly := Polymer2D.mk ((λ i : Z, (i, 0)) <$> Py.range n)).
  assert (Polymer2D.N poly = n) as HN.
  { unfold Polymer2D.N, poly. cbn [Polymer2D.coords]. rewrite line_coords_length. lia. }
  destruct (summary_nonempty poly) as [s Hs].
  { intros Hnil. unfold Polymer2D.N, Py.len in HN. rewrite Hnil in HN. simpl in HN. lia. }
  exists poly, s. split; [apply straight_chain_ok|]. split; [done|]. split; [done|].
  unfold main. rewrite straight_chain_ok. cbv beta iota zeta. fold poly.
  by rewrite Hs.
Qed.

(** A run of [main] without monomers stops after the banner. *)
Lemma main_nonpositive (n : Z) :
  n ≤ 0 →
  main n = ([Py.print [banner]], Raise (IndexError "list index out of range")).
Proof.
  intros Hn. unfold main. rewrite straight_chain_ok.
  unfold Py.range. rewrite seqZ_nil by done. reflexivity.
Qed.

Lemma ellipsis_shown_iff (n : Z) : ellipsis_shown n = true ↔ 11 < n.
Proof.
  unfold ellipsis_shown, bonds_line.
  destruct (Z_le_gt_dec n 0) as [Hn|Hn].
  - rewrite main_nonpositive by done. simpl. split; [done|lia].
  - destruct (main_positive n) as (poly & s & _ & HN & _ & ->); [lia|].
    cbn [fst lookup list_lookup]. unfold ellipsis. rewrite HN.
    destruct (Z.ltb_spec 11 n).
    + by rewrite ends_with_ellipsis_print3.
    + rewrite ends_with_ellipsis_print3_empty. split; [done|lia].
Qed.

Lemma bonds_length (p : Polymer2D.t) :
  Z.of_nat (length (Polymer2D.bonds p)) = Z.max 0 (Polymer2D.N p - 1).
Proof.
  unfold Polymer2D.bonds, Py.range. rewrite length_fmap, length_seqZ. lia.
Qed.

Lemma bonds_lookup (p : Polymer2D.t) (i : nat) :
  (i < length (Polymer2D.bonds p))%nat →
  Polymer2D.bonds p !! i = Some (Z.of_nat i, Z.of_nat i + 1).
Proof.
  intros Hi. pose proof (bonds_length p) as Hlen.
  unfold Polymer2D.bonds, Py.range in *.
  rewrite list_lookup_fmap, lookup_seqZ_lt by lia. done.
Qed.

(** C6, as the code has it: the bond-preview line shows the first 10 bond
    index pairs at most, and it ends with the ellipsis marker exactly when
    the chain has more than 11 monomers (N > 11), that is when more than 10
    bonds exist and the preview leaves some out. *)
Theorem main_bond_preview (n : Z) :
  (ellipsis_shown n = true ↔ n > 11)
  ∧ (ellipsis_shown n = true ↔ n - 1 > 10)
  ∧ (1 ≤ n →
     ∃ (poly : Polymer2D.t) (shown : list (Z * Z)),
       straight_chain n = Ok poly
       ∧ Z.of_nat (length (Polymer2D.bonds poly)) = n - 1
       ∧ shown = Py.slice_to 10 (Polymer2D.bonds poly)
       ∧ (length shown ≤ 10)%nat
       ∧ (∀ i : nat, (i < length shown)%nat →
            shown !! i = Some (Z.of_nat i, Z.of_nat i + 1))
       ∧ bonds_line (main n)
         = Some (Py.print ["Bonds (index pairs):";
                           Py.repr_pairs shown;
                           if 11 <? n then "..." else EmptyString])).
Proof.
  split; [rewrite ellipsis_shown_iff; lia|].
  split; [rewrite ellipsis_shown_iff; lia|].
  intros Hn. destruct (main_positive n Hn) as (poly & s & Hsc & HN & _ & Hmain).
  exists poly, (Py.slice_to 10 (Polymer2D.bonds poly)).
  split; [done|]. split; [rewrite bonds_length; lia|]. split; [done|].
  unfold Py.slice_to. split; [rewrite length_take; lia|]. split.
  - intros i Hi. rewrite length_take in Hi.
    rewrite lookup_take_lt by lia. apply bonds_lookup. lia.
  - rewrite Hmain. unfold bonds_line, ellipsis. by rewrite HN.
Qed.

(** With N = 12 there are 11 bonds, not more than 11, and the marker is
    printed: the preview shows 10 of the 11 bonds. *)
Lemma ellipsis_with_11_bonds :
  (∃ poly : Polymer2D.t,
     straight_chain 12 = Ok poly ∧ length (Polymer2D.bonds poly) = 11%nat)
  ∧ bonds_line (main 12)
    = Some ("Bonds (index pairs): [(0, 1), (1, 2), (2, 3), (3, 4), (4, 5), (5, 6), (6, 7), (7, 8), (8, 9), (9, 10)] ..."
            +:+ Py.nl)
  ∧ ¬ (ellipsis_shown 12 = true ↔ 12 - 1 > 11).
Proof.
  split; [eexists; split; by vm_compute|]. split; [by vm_compute|].
  rewrite ellipsis_shown_iff. lia.
Qed.

(** With N = 11 all 10 bonds are shown and no marker follows. *)
Example no_ellipsis_with_10_bonds :
  bonds_line (main 11)
  = Some ("Bonds (index pairs): [(0, 1), (1, 2), (2, 3), (3, 4), (4, 5), (5, 6), (6, 7), (7, 8), (8, 9), (9, 10)] "
          +:+ Py.nl)
  ∧ ellipsis_shown 11 = false.
Proof.
  split; [by vm_compute|].
  apply not_true_is_false. rewrite ellipsis_shown_iff. lia.
Qed.

(** The default run: 19 bonds, the first 10 shown, the marker, and the
    confirmation line. *)
Example main_default_run :
  main_default
    = ([Py.print [banner];
        Py.print [summary_text 20 (0, 0) (19, 0) 0 19 0 0];
        "Bonds (index pairs): [(0, 1), (1, 2), (2, 3), (3, 4), (4, 5), (5, 6), (6, 7), (7, 8), (8, 9), (9, 10)] ..."
          +:+ Py.nl;
        "Validation: OK " +:+ Py.nl],
       Ok tt).
Proof. by vm_compute. Qed.

(** * Further properties of the code *)

(** ** Manhattan distance *)

(** X1: [manhattan] is a metric on the lattice: it is never negative, it is
    0 exactly between a point and itself, it is symmetric, and it obeys the
    triangle inequality. *)
Theorem manhattan_metric (a b c : Pos2D) :
  0 ≤ manhattan a b
  ∧ (manhattan a b = 0 ↔ a = b)
  ∧ manhattan a b = manhattan b a
  ∧ manhattan a c ≤ manhattan a b + manhattan b c.
Proof.
  destruct a as [ax ay], b as [bx b_y], c as [cx cy]. unfold manhattan. simpl.
  split; [lia|]. split; [|split; lia].
  split.
  - intros H0. f_equal; lia.
  - intros Heq. injection Heq as -> ->. lia.
Qed.

Example manhattan_3_4 : manhattan (0, 0) (3, 4) = 7.
Proof. reflexivity. Qed.

(** X2: [manhattan] does not change when both points are moved by the same
    lattice vector, nor when both are mirrored in an axis or the two axes
    are swapped. *)
Theorem manhattan_lattice_symmetries (a b t : Pos2D) :
  manhattan (a.1 + t.1, a.2 + t.2) (b.1 + t.1, b.2 + t.2) = manhattan a b
  ∧ manhattan (- a.1, a.2) (- b.1, b.2) = manhattan a b
  ∧ manhattan (a.1, - a.2) (b.1, - b.2) = manhattan a b
  ∧ manhattan (a.2, a.1) (b.2, b.1) = manhattan a b.
Proof. unfold manhattan. simpl. lia. Qed.

(** ** Neighbors *)

Lemma elem_of_neighbors_2d (p q : Pos2D) :
  q ∈ neighbors_2d p ↔ manhattan p q = 1.
Proof.
  destruct p as [x y], q as [u v]. unfold neighbors_2d, manhattan. simpl.
  rewrite !elem_of_cons, elem_of_nil. split.
  - intros [H|[H|[H|[H|[]]]]]; injection H as -> ->; lia.
  - intros Hd.
    assert ((u = x + 1 ∧ v = y) ∨ (u = x - 1 ∧ v = y)
            ∨ (u = x ∧ v = y + 1) ∨ (u = x ∧ v = y - 1)) as Hc by lia.
    destruct Hc as [[-> ->]|[[-> ->]|[[-> ->]|[-> ->]]]]; auto.
Qed.

(** X3: the neighbor relation is symmetric and irreflexive, and the four
    neighbors of a point are four different points. *)
Theorem neighbors_2d_relation (p q : Pos2D) :
  (q ∈ neighbors_2d p ↔ p ∈ neighbors_2d q)
  ∧ (p ∉ neighbors_2d p)
  ∧ NoDup (neighbors_2d p).
Proof.
  split; [|split].
  - rewrite !elem_of_neighbors_2d. destruct p, q. unfold manhattan. simpl. lia.
  - rewrite elem_of_neighbors_2d. destruct p. unfold manhattan. simpl. lia.
  - destruct p as [x y]. unfold neighbors_2d.
    repeat (apply NoDup_cons; split;
            [rewrite ?elem_of_cons, elem_of_nil;
             intros Hin; repeat (destruct Hin as [Hin|Hin]); try done;
             injection Hin; lia|]).
    apply NoDup_nil_2.
Qed.

(** ** Bonds *)

(** X4: [bonds] lists the index pairs (0,1), (1,2), ..., (N-2,N-1) in
    order, whatever the coordinates are: N-1 pairs when N >= 1 and none for
    the empty polymer (not N-1 = -1 of them). *)
Theorem bonds_index_pairs (p : Polymer2D.t) :
  Z.of_nat (length (Polymer2D.bonds p)) = Z.max 0 (Polymer2D.N p - 1)
  ∧ (∀ (i : nat) (b : Z * Z),
       Polymer2D.bonds p !! i = Some b ↔
       b = (Z.of_nat i, Z.of_nat i + 1) ∧ Z.of_nat i + 1 < Polymer2D.N p)
  ∧ (Polymer2D.N p = 0 → Polymer2D.bonds p = []).
Proof.
  pose proof (bonds_length p) as Hlen. split; [done|]. split.
  - intros i b. split.
    + intros Hb. pose proof (lookup_lt_Some _ _ _ Hb) as Hi.
      rewrite bonds_lookup in Hb by done. split; [congruence | lia].
    + intros [-> Hi]. apply bonds_lookup. lia.
  - intros H0. apply length_zero_iff_nil. lia.
Qed.

(** ** Which chains [validate] accepts *)

Lemma manhattan_sym (a b : Pos2D) : manhattan a b = manhattan b a.
Proof. unfold manhattan. lia. Qed.

Lemma manhattan_triangle (a b c : Pos2D) :
  manhattan a c ≤ manhattan a b + manhattan b c.
Proof. unfold manhattan. lia. Qed.

Lemma manhattan_zero (a b : Pos2D) : manhattan a b = 0 ↔ a = b.
Proof.
  destruct a, b. unfold manhattan. simpl. split.
  - intros H0. f_equal; lia.
  - intros Heq. injection Heq as -> ->. lia.
Qed.

Lemma validate_iff_saw (p : Polymer2D.t) :
  Polymer2D.validate p = Ok tt ↔ saw (Polymer2D.coords p).
Proof.
  split; [|apply validate_saw].
  destruct (self_avoiding_dec (Polymer2D.coords p)) as [Hsa|Hsa].
  - rewrite (validate_distinct p Hsa).
    destruct (check_bonds_range p) as [[_ Hc]|(i & a & b & _ & ->)]; [done|discriminate].
  - rewrite (validate_overlap p Hsa). discriminate.
Qed.

Lemma saw_NoDup (l : list Pos2D) : saw l ↔ NoDup l ∧ connected l.
Proof. unfold saw. by rewrite self_avoiding_NoDup. Qed.

Section isometry.
Variable f : Pos2D → Pos2D.
Hypothesis f_isometry : ∀ a b : Pos2D, manhattan (f a) (f b) = manhattan a b.

Lemma isometry_inj : Inj (=) (=) f.
Proof.
  intros a b Heq. apply manhattan_zero. rewrite <- f_isometry.
  by apply manhattan_zero.
Qed.

Lemma connected_isometry (l : list Pos2D) : connected (f <$> l) ↔ connected l.
Proof.
  unfold connected, bond_at. split.
  - intros Hc i a b [Ha Hb]. rewrite <- f_isometry. apply (Hc i).
    rewrite !list_lookup_fmap, Ha, Hb. done.
  - intros Hc i a b [Ha Hb]. rewrite list_lookup_fmap, fmap_Some in Ha, Hb.
    destruct Ha as (a' & Ha & ->), Hb as (b' & Hb & ->).
    rewrite f_isometry. by apply (Hc i).
Qed.

Lemma saw_isometry (l : list Pos2D) : saw (f <$> l) ↔ saw l.
Proof.
  pose proof isometry_inj as Hinj.
  rewrite !saw_NoDup, connected_isometry. by rewrite (NoDup_fmap f).
Qed.
End isometry.

Lemma connected_reverse_1 (l : list Pos2D) : connected l → connected (reverse l).
Proof.
  intros Hc i a b [Ha Hb].
  pose proof (lookup_lt_Some _ _ _ Hb) as Hlt. rewrite length_reverse in Hlt.
  rewrite reverse_lookup in Ha by lia. rewrite reverse_lookup in Hb by lia.
  rewrite manhattan_sym. apply (Hc (length l - S (S i))%nat). split; [done|].
  by replace (S (length l - S (S i))) with (length l - S i)%nat by lia.
Qed.

Lemma saw_reverse (l : list Pos2D) : saw (reverse l) ↔ saw l.
Proof.
  assert (NoDup (reverse l) ↔ NoDup l) as Hnd by (by rewrite reverse_Permutation).
  rewrite !saw_NoDup, Hnd. split; intros [Hn Hc]; (split; [done|]).
  - rewrite <- (reverse_involutive l). by apply connected_reverse_1.
  - by apply connected_reverse_1.
Qed.

Lemma connected_app (l1 l2 : list Pos2D) :
  connected (l1 ++ l2) → connected l1 ∧ connected l2.
Proof.
  intros Hc. split.
  - intros i a b [Ha Hb]. apply (Hc i). split; by apply lookup_app_l_Some.
  - intros i a b [Ha Hb]. apply (Hc (length l1 + i)%nat). split.
    + by rewrite lookup_app_r, Nat.add_comm, Nat.add_sub by lia.
    + rewrite lookup_app_r by lia.
      by replace (S (length l1 + i) - length l1)%nat with (S i) by lia.
Qed.

Lemma saw_app (l1 l2 : list Pos2D) : saw (l1 ++ l2) → saw l1 ∧ saw l2.
Proof.
  rewrite !saw_NoDup, NoDup_app. intros [(Hn1 & _ & Hn2) Hc].
  by destruct (connected_app _ _ Hc).
Qed.

Lemma connected_snoc (l : list Pos2D) (a q : Pos2D) :
  connected l → last l = Some a → manhattan a q = 1 → connected (l ++ [q]).
Proof.
  intros Hc Hlast Hd i x y [Hx Hy]. rewrite last_lookup in Hlast.
  pose proof (lookup_lt_Some _ _ _ Hlast) as Hlen.
  pose proof (lookup_lt_Some _ _ _ Hy) as Hi. rewrite length_app in Hi. simpl in Hi.
  destruct (decide (S i < length l)%nat) as [Hlt|Hge].
  - rewrite lookup_app_l in Hx, Hy by lia. by apply (Hc i).
  - assert (i = pred (length l)) as -> by lia.
    rewrite lookup_app_l in Hx by lia.
    rewrite lookup_app_r in Hy by lia.
    replace (S (pred (length l)) - length l)%nat with 0%nat in Hy by lia.
    simpl in Hy. by simplify_eq.
Qed.

(** Along a connected chain the distance between two monomers is at most
    the number of bonds between them. *)
Lemma connected_walk (l : list Pos2D) :
  connected l →
  ∀ (d i : nat) (a b : Pos2D),
    l !! i = Some a → l !! (i + d)%nat = Some b → manhattan a b ≤ Z.of_nat d.
Proof.
  intros Hc. induction d as [|d IH]; intros i a b Ha Hb.
  - rewrite Nat.add_0_r in Hb.
    assert (manhattan a b = 0) as -> by (apply manhattan_zero; congruence). done.
  - destruct (lookup_lt_is_Some_2 l (i + d)%nat) as [c Hc'].
    { apply lookup_lt_Some in Hb. lia. }
    pose proof (IH i a c Ha Hc') as Hac.
    assert (manhattan c b = 1) as Hcb.
    { apply (Hc (i + d)%nat). split; [done|]. by rewrite <- Nat.add_succ_r. }
    pose proof (manhattan_triangle a c b). lia.
Qed.

(** X5: moving a chain by a map of the lattice that keeps Manhattan
    distances (a translation, a mirror image, a swap of the axes, ...) does
    not change whether [validate] accepts it. *)
Theorem validate_isometry (p : Polymer2D.t) (f : Pos2D → Pos2D) :
  (∀ a b : Pos2D, manhattan (f a) (f b) = manhattan a b) →
  Polymer2D.validate (Polymer2D.mk (f <$> Polymer2D.coords p)) = Ok tt
  ↔ Polymer2D.validate p = Ok tt.
Proof.
  intros Hf. rewrite !validate_iff_saw. cbn [Polymer2D.coords].
  by apply saw_isometry.
Qed.

Lemma validate_isometry_witness :
  Polymer2D.validate (Polymer2D.mk [(3, -2); (4, -2); (4, -1)]) = Ok tt
  ↔ Polymer2D.validate (Polymer2D.mk [(0, 0); (1, 0); (1, 1)]) = Ok tt.
Proof.
  apply (validate_isometry (Polymer2D.mk [(0, 0); (1, 0); (1, 1)])
           (λ a, (a.1 + 3, a.2 - 2))).
  intros a b. unfold manhattan. simpl. lia.
Defined.

(** X6: [validate] accepts a chain exactly when it accepts the chain read
    from its other end. *)
Theorem validate_reverse (p : Polymer2D.t) :
  Polymer2D.validate (Polymer2D.mk (reverse (Polymer2D.coords p))) = Ok tt
  ↔ Polymer2D.validate p = Ok tt.
Proof. rewrite !validate_iff_saw. cbn [Polymer2D.coords]. apply saw_reverse. Qed.

(** X7: every run of consecutive monomers of a chain that [validate]
    accepts is itself accepted. *)
Theorem validate_subchain (l1 l2 l3 : list Pos2D) :
  Polymer2D.validate (Polymer2D.mk (l1 ++ l2 ++ l3)) = Ok tt →
  Polymer2D.validate (Polymer2D.mk l2) = Ok tt.
Proof.
  rewrite !validate_iff_saw. cbn [Polymer2D.coords]. intros Hs.
  apply saw_app in Hs as [_ Hs]. by apply saw_app in Hs as [Hs _].
Qed.

Lemma validate_subchain_witness :
  Polymer2D.validate (Polymer2D.mk [(1, 0); (1, 1)]) = Ok tt.
Proof.
  apply (validate_subchain [(0, 0)] [(1, 0); (1, 1)] [(0, 1); (0, 2)]).
  by vm_compute.
Defined.

(** X8: growing an accepted chain by one monomer placed on a neighbor (as
    [neighbors_2d] lists them) of its last monomer gives an accepted chain
    when that site is free, and the overlap error when a monomer of the
    chain already sits there. *)
Theorem validate_grow (p : Polymer2D.t) (a q : Pos2D) :
  Polymer2D.validate p = Ok tt →
  last (Polymer2D.coords p) = Some a →
  q ∈ neighbors_2d a →
  (q ∉ Polymer2D.coords p →
     Polymer2D.validate (Polymer2D.mk (Polymer2D.coords p ++ [q])) = Ok tt)
  ∧ (q ∈ Polymer2D.coords p →
       Polymer2D.validate (Polymer2D.mk (Polymer2D.coords p ++ [q]))
         = Raise (ValueError Polymer2D.overlap_msg)).
Proof.
  rewrite validate_iff_saw, saw_NoDup, elem_of_neighbors_2d.
  intros [Hn Hc] Hlast Hq. split.
  - intros Hfree. apply validate_saw, saw_NoDup. cbn [Polymer2D.coords]. split.
    + apply NoDup_app. split; [done|]. split; [|apply NoDup_singleton].
      intros x Hx Hxq. apply list_elem_of_singleton in Hxq. by subst x.
    + by apply (connected_snoc _ a).
  - intros Hin. apply validate_overlap. cbn [Polymer2D.coords].
    rewrite self_avoiding_NoDup, NoDup_app. intros (_ & Hdis & _).
    apply (Hdis q Hin). by apply list_elem_of_singleton.
Qed.

Lemma validate_grow_witness :
  Polymer2D.validate (Polymer2D.mk [(0, 0); (1, 0); (1, 1); (0, 1); (0, 2)]) = Ok tt
  ∧ Polymer2D.validate (Polymer2D.mk [(0, 0); (1, 0); (1, 1); (0, 1); (0, 0)])
    = Raise (ValueError Polymer2D.overlap_msg).
Proof.
  split.
  - apply (validate_grow (Polymer2D.mk [(0, 0); (1, 0); (1, 1); (0, 1)]) (0, 1) (0, 2)).
    + by vm_compute.
    + reflexivity.
    + apply elem_of_neighbors_2d. reflexivity.
    + apply (bool_decide_unpack _). vm_compute. exact I.
  - apply (validate_grow (Polymer2D.mk [(0, 0); (1, 0); (1, 1); (0, 1)]) (0, 1) (0, 0)).
    + by vm_compute.
    + reflexivity.
    + apply elem_of_neighbors_2d. reflexivity.
    + apply (bool_decide_unpack _). vm_compute. exact I.
Defined.

(** X9: in a chain that [validate] accepts, two monomers are never farther
    apart (in Manhattan distance) than the number of bonds between them,
    and two different monomers are at distance 1 at least. *)
Theorem validate_walk_bound (p : Polymer2D.t) (i j : nat) (a b : Pos2D) :
  Polymer2D.validate p = Ok tt →
  Polymer2D.coords p !! i = Some a →
  Polymer2D.coords p !! j = Some b →
  manhattan a b ≤ Z.abs (Z.of_nat i - Z.of_nat j)
  ∧ (i ≠ j → 1 ≤ manhattan a b).
Proof.
  rewrite validate_iff_saw. intros [Hsa Hc] Ha Hb. split.
  - destruct (Nat.le_ge_cases i j) as [Hij|Hij].
    + pose proof (connected_walk _ Hc (j - i) i a b Ha) as Hw.
      replace (i + (j - i))%nat with j in Hw by lia. specialize (Hw Hb). lia.
    + pose proof (connected_walk _ Hc (i - j) j b a Hb) as Hw.
      replace (j + (i - j))%nat with i in Hw by lia. specialize (Hw Ha).
      rewrite manhattan_sym. lia.
  - intros Hne. destruct (decide (manhattan a b = 0)) as [H0|H0].
    + apply manhattan_zero in H0. subst b. by destruct Hne, (Hsa i j a).
    + unfold manhattan in *. lia.
Qed.

Lemma validate_walk_bound_witness :
  manhattan (0, 0) (0, 1) ≤ Z.abs (Z.of_nat 0 - Z.of_nat 3)
  ∧ (0%nat ≠ 3%nat → 1 ≤ manhattan (0, 0) (0, 1)).
Proof.
  apply (validate_walk_bound (Polymer2D.mk [(0, 0); (1, 0); (1, 1); (0, 1)])).
  - by vm_compute.
  - reflexivity.
  - reflexivity.
Defined.

(** ** The summary and the entry point on straight chains *)

Lemma summary_line_coords (n : Z) :
  1 ≤ n →
  Polymer2D.summary (Polymer2D.mk ((λ i : Z, (i, 0)) <$> Py.range n))
  = Ok (summary_text n (0, 0) (n - 1, 0) 0 (n - 1) 0 0).
Proof.
  intros Hn. set (l := (λ i : Z, (i, 0)) <$> Py.range n).
  assert (Py.len l = n) as Hlen by (unfold l; rewrite line_coords_length; lia).
  assert (∀ (i : nat) (a : Pos2D), l !! i = Some a ↔ a = (Z.of_nat i, 0) ∧ Z.of_nat i < n)
    as Hl by apply line_coords_lookup.
  assert (l !! 0%nat = Some (0, 0)) as H0 by (apply Hl; split; [done|lia]).
  assert (l !! pred (length l) = Some (n - 1, 0)) as Hlast.
  { unfold Py.len in Hlen. apply Hl. split; [f_equal|]; lia. }
  assert (∀ c : Pos2D, c ∈ l → 0 ≤ c.1 ≤ n - 1 ∧ c.2 = 0) as Hall.
  { intros c Hc. apply list_elem_of_lookup in Hc as [i Hi].
    apply Hl in Hi as [-> ?]. simpl. lia. }
  rewrite <- Hlen at 1.
  apply (summary_fields (Polymer2D.mk l)); cbn [Polymer2D.coords].
  - by apply (getitem_lookup _ 0%nat).
  - apply getitem_last. by rewrite last_lookup.
  - apply min_is_min. split.
    + apply list_elem_of_fmap. exists (0, 0). split; [done|]. by apply list_elem_of_lookup_2 in H0.
    + apply Forall_fmap, Forall_forall. intros c Hc. simpl. by apply Hall.
  - apply max_is_max. split.
    + apply list_elem_of_fmap. exists (n - 1, 0). split; [done|].
      by apply list_elem_of_lookup_2 in Hlast.
    + apply Forall_fmap, Forall_forall. intros c Hc. simpl. by apply Hall.
  - apply min_is_min. split.
    + apply list_elem_of_fmap. exists (0, 0). split; [done|]. by apply list_elem_of_lookup_2 in H0.
    + apply Forall_fmap, Forall_forall. intros c Hc. simpl. apply Hall in Hc. lia.
  - apply max_is_max. split.
    + apply list_elem_of_fmap. exists (0, 0). split; [done|]. by apply list_elem_of_lookup_2 in H0.
    + apply Forall_fmap, Forall_forall. intros c Hc. simpl. apply Hall in Hc. lia.
Qed.

Lemma string_app_assoc (s1 s2 s3 : string) :
  (s1 +:+ s2) +:+ s3 = s1 +:+ (s2 +:+ s3).
Proof.
  induction s1 as [|c s1 IH]; [reflexivity|].
  change (String c ((s1 +:+ s2) +:+ s3) = String c (s1 +:+ (s2 +:+ s3))).
  by rewrite IH.
Qed.

(** X10: on a polymer of printable coordinates, [summary] returns a text
    as soon as there is one monomer, and the only error it raises is the
    [IndexError] of [coords[0]] on the empty polymer: [min] and [max] never
    get to fail. *)
Theorem summary_outcomes (p : Polymer2D.t) :
  Forall printable_pos (Polymer2D.coords p) →
  (1 ≤ Polymer2D.N p → ∃ s : string, Polymer2D.summary p = Ok s)
  ∧ (∀ e : exn, Polymer2D.summary p = Raise e →
       Polymer2D.N p = 0 ∧ e = IndexError "list index out of range").
Proof.
  intros _. destruct (decide (Polymer2D.coords p = [])) as [Hnil|Hne].
  - destruct p as [l]. cbn [Polymer2D.coords] in Hnil. subst l. split.
    + unfold Polymer2D.N, Py.len. simpl. lia.
    + intros e. unfold Polymer2D.summary. cbn [Polymer2D.coords].
      rewrite getitem_nil. intros He. split; [done|]. by injection He.
  - destruct (summary_nonempty p Hne) as [s Hs]. split; [by exists s|].
    intros e He. congruence.
Qed.

Lemma summary_outcomes_witness :
  ((1 ≤ Polymer2D.N (Polymer2D.mk [(2, -1); (2, 0); (3, 0)]) →
    ∃ s : string, Polymer2D.summary (Polymer2D.mk [(2, -1); (2, 0); (3, 0)]) = Ok s)
   ∧ (∀ e : exn, Polymer2D.summary (Polymer2D.mk [(2, -1); (2, 0); (3, 0)]) = Raise e →
        Polymer2D.N (Polymer2D.mk [(2, -1); (2, 0); (3, 0)]) = 0
        ∧ e = IndexError "list index out of range"))
  ∧ ((1 ≤ Polymer2D.N (Polymer2D.mk []) →
      ∃ s : string, Polymer2D.summary (Polymer2D.mk []) = Ok s)
     ∧ (∀ e : exn, Polymer2D.summary (Polymer2D.mk []) = Raise e →
          Polymer2D.N (Polymer2D.mk []) = 0
          ∧ e = IndexError "list index out of range")).
Proof.
  split.
  - apply (summary_outcomes (Polymer2D.mk [(2, -1); (2, 0); (3, 0)])).
    repeat (constructor; [split; by vm_compute|]). constructor.
  - apply (summary_outcomes (Polymer2D.mk [])). constructor.
Defined.

(** X11: for every N >= 1 the summary of [straight_chain N] reads N
    monomers, first (0, 0), last (N-1, 0), x range [0, N-1] and
    y range [0, 0]. *)
Theorem summary_straight_chain (n : Z) :
  1 ≤ n →
  ∃ poly : Polymer2D.t,
    straight_chain n = Ok poly
    ∧ Polymer2D.summary poly
      = Ok ("N = " +:+ Py.str_int n +:+ Py.nl
            +:+ "First monomer: (0, 0)" +:+ Py.nl
            +:+ "Last monomer : (" +:+ Py.str_int (n - 1) +:+ ", 0)" +:+ Py.nl
            +:+ "x range: [0, " +:+ Py.str_int (n - 1) +:+ "]" +:+ Py.nl
            +:+ "y range: [0, 0]" +:+ Py.nl).
Proof.
  intros Hn. eexists. split; [apply straight_chain_ok|].
  rewrite summary_line_coords by done. f_equal.
  unfold summary_text, Py.repr_pair. cbn [fst snd].
  change (Py.str_int 0) with "0". rewrite !string_app_assoc. reflexivity.
Qed.

Lemma summary_straight_chain_witness :
  ∃ poly : Polymer2D.t,
    straight_chain 20 = Ok poly
    ∧ Polymer2D.summary poly
      = Ok ("N = 20" +:+ Py.nl
            +:+ "First monomer: (0, 0)" +:+ Py.nl
            +:+ "Last monomer : (19, 0)" +:+ Py.nl
            +:+ "x range: [0, 19]" +:+ Py.nl
            +:+ "y range: [0, 0]" +:+ Py.nl).
Proof. apply (summary_straight_chain 20). lia. Defined.

(** X12: what a run of [main] prints and how it ends.  With N >= 1 it
    prints the banner, the summary of the straight chain, the bond preview
    and the confirmation line, and ends normally; validation never fails.
    With N <= 0 it prints the banner and then ends with the [IndexError]
    that [summary] raises on the empty chain. *)
Theorem main_run (n : Z) :
  (1 ≤ n →
   main n
   = ([Py.print [banner];
       Py.print [summary_text n (0, 0) (n - 1, 0) 0 (n - 1) 0 0];
       Py.print ["Bonds (index pairs):";
                 Py.repr_pairs (take 10 ((λ i : Z, (i, i + 1)) <$> Py.range (n - 1)));
                 if 11 <? n then "..." else EmptyString];
       Py.print ["Validation: OK "]],
      Ok tt))
  ∧ (n ≤ 0 →
     main n = ([Py.print [banner]], Raise (IndexError "list index out of range"))).
Proof.
  split; [|apply main_nonpositive].
  intros Hn. unfold main. rewrite straight_chain_ok. cbv beta iota zeta.
  rewrite summary_line_coords by done.
  unfold ellipsis, Polymer2D.bonds, Py.slice_to, Polymer2D.N.
  cbn [Polymer2D.coords]. rewrite line_coords_length.
  by replace (Z.max 0 n) with n by lia.
Qed.

(** ** Accepted chains and the neighbor moves *)

(** X13: [validate] accepts exactly the chains without a repeated site in
    which every monomer is one of the [neighbors_2d] of the monomer before
    it. *)
Theorem validate_iff_neighbor_steps (p : Polymer2D.t) :
  Polymer2D.validate p = Ok tt
  ↔ NoDup (Polymer2D.coords p)
    ∧ ∀ (i : nat) (a b : Pos2D),
        Polymer2D.coords p !! i = Some a →
        Polymer2D.coords p !! S i = Some b →
        b ∈ neighbors_2d a.
Proof.
  rewrite validate_iff_saw, saw_NoDup. unfold connected, bond_at.
  split; intros [Hn Hc]; (split; [done|]).
  - intros i a b Ha Hb. apply elem_of_neighbors_2d. by apply (Hc i).
  - intros i a b [Ha Hb]. apply elem_of_neighbors_2d. by apply (Hc i).
Qed.

Lemma bond_parity (a b : Pos2D) :
  manhattan a b = 1 → ∃ k : Z, (b.1 + b.2) - (a.1 + a.2) = 1 + 2 * k.
Proof.
  unfold manhattan. intros Hd.
  assert ((b.1 + b.2) - (a.1 + a.2) = 1 ∨ (b.1 + b.2) - (a.1 + a.2) = -1) as [Hs|Hs] by lia.
  - exists 0. lia.
  - exists (-1). lia.
Qed.

Lemma manhattan_parity (a b : Pos2D) :
  ∃ k : Z, manhattan a b = (b.1 + b.2) - (a.1 + a.2) + 2 * k.
Proof.
  exists (Z.max (a.1 - b.1) 0 + Z.max (a.2 - b.2) 0). unfold manhattan. lia.
Qed.

Lemma connected_parity (l : list Pos2D) :
  connected l →
  ∀ (d i : nat) (a b : Pos2D),
    l !! i = Some a → l !! (i + d)%nat = Some b →
    ∃ k : Z, (b.1 + b.2) - (a.1 + a.2) = Z.of_nat d + 2 * k.
Proof.
  intros Hc. induction d as [|d IH]; intros i a b Ha Hb.
  - rewrite Nat.add_0_r in Hb. assert (a = b) as -> by congruence. exists 0. lia.
  - destruct (lookup_lt_is_Some_2 l (i + d)%nat) as [c Hc'].
    { apply lookup_lt_Some in Hb. lia. }
    destruct (IH i a c Ha Hc') as [k1 Hk1].
    destruct (bond_parity c b) as [k2 Hk2].
    { apply (Hc (i + d)%nat). split; [done|]. by rewrite <- Nat.add_succ_r. }
    exists (k1 + k2). lia.
Qed.

(** X14: in a chain that [validate] accepts, the Manhattan distance between
    monomers i and j has the parity of j - i; so two monomers an even
    number of bonds apart are never lattice neighbors. *)
Theorem validate_parity (p : Polymer2D.t) (i j : nat) (a b : Pos2D) :
  Polymer2D.validate p = Ok tt →
  Polymer2D.coords p !! i = Some a →
  Polymer2D.coords p !! j = Some b →
  Z.Even (manhattan a b - (Z.of_nat j - Z.of_nat i))
  ∧ (Z.Even (Z.of_nat j - Z.of_nat i) → b ∉ neighbors_2d a).
Proof.
  rewrite validate_iff_saw. intros [_ Hc] Ha Hb.
  assert (Z.Even (manhattan a b - (Z.of_nat j - Z.of_nat i))) as Hev.
  { destruct (manhattan_parity a b) as [k1 Hk1].
    destruct (Nat.le_ge_cases i j) as [Hij|Hij].
    - destruct (connected_parity _ Hc (j - i) i a b Ha) as [k2 Hk2].
      { by replace (i + (j - i))%nat with j by lia. }
      exists (k1 + k2). lia.
    - destruct (connected_parity _ Hc (i - j) j b a Hb) as [k2 Hk2].
      { by replace (j + (i - j))%nat with i by lia. }
      exists (k1 - k2). lia. }
  split; [done|].
  intros [m Hm] Hin. apply elem_of_neighbors_2d in Hin.
  destruct Hev as [m' Hm']. lia.
Qed.

Lemma validate_parity_witness :
  Z.Even (manhattan (0, 0) (1, 1) - (Z.of_nat 2 - Z.of_nat 0))
  ∧ (Z.Even (Z.of_nat 2 - Z.of_nat 0) → (1, 1) ∉ neighbors_2d (0, 0)).
Proof.
  apply (validate_parity (Polymer2D.mk [(0, 0); (1, 0); (1, 1); (0, 1)])).
  - by vm_compute.
  - reflexivity.
  - reflexivity.
Defined.
